(** * Futures math utilities

    A shallow embedding of [src/futures_math.py] and the properties its
    specification states about it.

    Number model.  The specification's data model describes prices, rates,
    notionals and time fractions as real numbers, and it counts rounding
    differences as outside the contract.  In the main development Python's
    [float] is therefore embedded as [R]: every arithmetic operation is the
    exact one.  What the interpreter does beyond arithmetic is kept
    explicit:
    - [/] raises [ZeroDivisionError] on a zero divisor;
    - [float('nan')] is a value of its own, [PyNaN];
    - [**] on a negative base and a fractional exponent yields a complex
      number;
    - [max] and [min] on two arguments keep the first argument unless the
      second compares strictly greater (smaller).

    Two further layers say where binary64 departs from the exact model:
    - [Ranged] keeps exact arithmetic and adds the range check of [**] and
      [math.exp], which raise [OverflowError] when their result leaves the
      binary64 range;
    - [Binary64] evaluates the comparison-and-addition functions on
      primitive binary64 floats, rounding included. *)

From Stdlib Require Import Reals Lra Lia List String Permutation ZArith.
From Stdlib Require Import Floats.
Import ListNotations.

#[local] Set Warnings "-inexact-float".

Local Open Scope R_scope.

(** ** Exceptions and results *)

Inductive exn : Type :=
| ZeroDivisionError
| OverflowError.

Inductive result (A : Type) : Type :=
| Ok (a : A)
| Raise (e : exn).

Arguments Ok {A} a.
Arguments Raise {A} e.

Definition bind {A B : Type} (c : result A) (k : A -> result B) : result B :=
  match c with
  | Ok a => k a
  | Raise e => Raise e
  end.

Notation "x <- c ;; k" := (bind c (fun x => k))
  (at level 61, c at next level, right associativity).

(** ** Python values a [float] expression of the module can evaluate to *)

Inductive pyval : Type :=
| PyFloat (x : R)
| PyNaN
| PyComplex (re im : R).

(** ** Built-in operations *)

(** [x / y] on floats. *)
Definition float_div (x y : R) : result R :=
  if Req_dec_T y 0 then Raise ZeroDivisionError else Ok (x / y).

(** [max(a, b)]: the candidate [a] is replaced only when [b > a]. *)
Definition py_max (a b : R) : R :=
  if Rlt_dec a b then b else a.

(** [min(a, b)]: the candidate [a] is replaced only when [b < a]. *)
Definition py_min (a b : R) : R :=
  if Rlt_dec b a then b else a.

(** [float(np.sum(list(xs)))]: the reduction starts from the additive
    identity and accumulates the items in order. *)
Definition np_sum (xs : list R) : R :=
  fold_left Rplus xs 0.

(** The complex branch of [**]: [complex(iv) ** complex(iw)] for a negative
    real [iv], in polar form (modulus [|iv|**iw], phase [pi*iw]). *)
Definition complex_pow (iv iw : R) : pyval :=
  PyComplex (Rpower (- iv) iw * cos (PI * iw))
            (Rpower (- iv) iw * sin (PI * iw)).

(** [iv ** iw] on floats, case by case as the interpreter sorts them out:
    anything to the power 0 is 1; 0 to a negative power is an error and to a
    positive power is 0; a negative base becomes complex under a fractional
    exponent and otherwise takes the sign from the exponent's parity. *)
Definition float_pow (iv iw : R) : result pyval :=
  if Req_dec_T iw 0 then Ok (PyFloat 1.0)
  else if Req_dec_T iv 0 then
    if Rlt_dec iw 0 then Raise ZeroDivisionError else Ok (PyFloat 0.0)
  else if Rlt_dec iv 0 then
    if Req_dec_T iw (IZR (Zfloor iw)) then
      let ix := Rpower (- iv) iw in
      Ok (PyFloat (if Z.odd (Zfloor iw) then - ix else ix))
    else Ok (complex_pow iv iw)
  else Ok (PyFloat (Rpower iv iw)).

(** [v - x] for a float [x]. *)
Definition pyval_sub (v : pyval) (x : R) : pyval :=
  match v with
  | PyFloat a => PyFloat (a - x)
  | PyNaN => PyNaN
  | PyComplex re im => PyComplex (re - x) im
  end.

(** ** The module's functions *)

Definition year_fraction (start_ts end_ts : R) : result R :=
  q <- float_div (end_ts - start_ts) (365.0 * 24.0 * 3600.0) ;;
  Ok (py_max 1e-12 q).

Definition cost_of_carry_fair_price (S r_annual c_annual T_years : R) : R :=
  S * exp ((r_annual - c_annual) * T_years).

Definition basis (F S : R) : result R :=
  float_div (F - S) S.

Definition annualize_basis (b T_years : R) : result pyval :=
  if Rle_dec T_years 0 then Ok PyNaN
  else
    e <- float_div 1.0 T_years ;;
    p <- float_pow (1.0 + b) e ;;
    Ok (pyval_sub p 1.0).

Definition funding_cashflows (notional_usd : R) (funding_rates : list R)
    (side : string) : R :=
  let sgn := if String.eqb side "long" then - 1.0 else 1.0 in
  notional_usd * sgn * np_sum funding_rates.

(** Default of the keyword argument [fees_bps_per_leg]. *)
Definition fees_bps_per_leg_default : R := 0.0.

Definition cash_and_carry_pnl (spot_qty entry_price : R)
    (funding_rates : list R) (fees_bps_per_leg : R) : result R :=
  let notional := spot_qty * entry_price in
  f <- float_div fees_bps_per_leg 10000.0 ;;
  let fees := notional * f * 2.0 in
  let funding_pnl := funding_cashflows notional funding_rates "short" in
  Ok (funding_pnl - fees).

Definition clamp (x lo hi : R) : R :=
  py_max lo (py_min hi x).

(** Default of the keyword argument [interest_per_interval]. *)
Definition interest_per_interval_default : R := 0.0001.

Definition predicted_funding_from_premium
    (premium_index interest_per_interval : R) : R :=
  let adj := clamp (interest_per_interval - premium_index) (- 0.0005) 0.0005 in
  premium_index + adj.



(** ** Exact arithmetic with the binary64 range of [**] and [math.exp] *)

Module Ranged.

(** The first magnitude that is not a binary64 number. *)
Definition float_range_limit : R := 2 ^ 1024.

(** A result of the C library's [pow] or [exp]: the interpreter raises
    [OverflowError] when it is out of range. *)
Definition check_range (x : R) : result R :=
  if Rle_dec float_range_limit (Rabs x) then Raise OverflowError else Ok x.

Definition complex_pow (iv iw : R) : result pyval :=
  re <- check_range (Rpower (- iv) iw * cos (PI * iw)) ;;
  im <- check_range (Rpower (- iv) iw * sin (PI * iw)) ;;
  Ok (PyComplex re im).

Definition float_pow (iv iw : R) : result pyval :=
  if Req_dec_T iw 0 then Ok (PyFloat 1.0)
  else if Req_dec_T iv 0 then
    if Rlt_dec iw 0 then Raise ZeroDivisionError else Ok (PyFloat 0.0)
  else if Rlt_dec iv 0 then
    if Req_dec_T iw (IZR (Zfloor iw)) then
      ix <- check_range (Rpower (- iv) iw) ;;
      Ok (PyFloat (if Z.odd (Zfloor iw) then - ix else ix))
    else complex_pow iv iw
  else
    ix <- check_range (Rpower iv iw) ;;
    Ok (PyFloat ix).

Definition cost_of_carry_fair_price (S r_annual c_annual T_years : R)
    : result R :=
  e <- check_range (exp ((r_annual - c_annual) * T_years)) ;;
  Ok (S * e).

Definition annualize_basis (b T_years : R) : result pyval :=
  if Rle_dec T_years 0 then Ok PyNaN
  else
    e <- float_div 1.0 T_years ;;
    p <- float_pow (1.0 + b) e ;;
    Ok (pyval_sub p 1.0).

End Ranged.

(** ** The comparison-and-addition functions on binary64 floats *)

Module Binary64.

Definition py_max (a b : float) : float :=
  if PrimFloat.ltb a b then b else a.

Definition py_min (a b : float) : float :=
  if PrimFloat.ltb b a then b else a.

Definition clamp (x lo hi : float) : float :=
  py_max lo (py_min hi x).

Definition predicted_funding_from_premium
    (premium_index interest_per_interval : float) : float :=
  let adj :=
    clamp (interest_per_interval - premium_index)%float
          (- 0.0005)%float 0.0005%float in
  (premium_index + adj)%float.

End Binary64.

(** ** Facts about the built-in operations *)

(** Case analysis on every comparison the goal or a hypothesis branches
    on. *)
Ltac case_comparisons :=
  repeat match goal with
         | |- context [Rlt_dec ?a ?b] => destruct (Rlt_dec a b) in *
         | |- context [Rle_dec ?a ?b] => destruct (Rle_dec a b) in *
         | |- context [Req_dec_T ?a ?b] => destruct (Req_dec_T a b) in *
         | H : context [Rlt_dec ?a ?b] |- _ => destruct (Rlt_dec a b) in *
         end.


Lemma float_div_nonzero (x y : R) :
  y <> 0 -> float_div x y = Ok (x / y).
Proof.
  intros Hy. unfold float_div.
  destruct (Req_dec_T y 0) as [E | _]; [contradiction | reflexivity].
Qed.

Lemma float_div_raises_iff (x y : R) :
  float_div x y = Raise ZeroDivisionError <-> y = 0.
Proof.
  unfold float_div.
  destruct (Req_dec_T y 0) as [E | N]; split; intros H;
    try assumption; try reflexivity; try discriminate; contradiction.
Qed.

Lemma py_max_Rmax (a b : R) : py_max a b = Rmax a b.
Proof.
  unfold py_max, Rmax. case_comparisons; lra.
Qed.

Lemma py_min_Rmin (a b : R) : py_min a b = Rmin a b.
Proof.
  unfold py_min, Rmin. case_comparisons; lra.
Qed.

Lemma clamp_Rmax_Rmin (x lo hi : R) : clamp x lo hi = Rmax lo (Rmin hi x).
Proof.
  unfold clamp. now rewrite py_min_Rmin, py_max_Rmax.
Qed.

(** The accumulator loop adds the items to whatever it started from. *)
Lemma fold_left_Rplus_acc (xs : list R) (a : R) :
  fold_left Rplus xs a = a + fold_right Rplus 0 xs.
Proof.
  revert a. induction xs as [| x xs IH]; intros a; simpl.
  - lra.
  - rewrite IH. lra.
Qed.

Lemma np_sum_fold_right (xs : list R) : np_sum xs = fold_right Rplus 0 xs.
Proof.
  unfold np_sum. rewrite fold_left_Rplus_acc. lra.
Qed.

Lemma fold_right_Rplus_perm (xs ys : list R) :
  Permutation xs ys -> fold_right Rplus 0 xs = fold_right Rplus 0 ys.
Proof.
  induction 1 as [| x xs ys _ IH | x y xs | xs ys zs _ IH1 _ IH2]; simpl.
  - reflexivity.
  - now rewrite IH.
  - lra.
  - now rewrite IH1.
Qed.

Lemma side_long : String.eqb "long" "long" = true.
Proof. reflexivity. Qed.

Lemma side_short : String.eqb "short" "long" = false.
Proof. reflexivity. Qed.

(** ** Funding accounting *)

(** C1: for every notional and every finite sequence of rates,
    [funding_cashflows] returns the notional times the sum of the rates,
    multiplied by -1 for side "long" and by +1 for side "short"; for a
    single rate [r] this is [-N*r] and [N*r]. *)
Theorem funding_cashflows_signed_sum (N : R) (rs : list R) :
  funding_cashflows N rs "long" = -1 * (N * fold_right Rplus 0 rs) /\
  funding_cashflows N rs "short" = 1 * (N * fold_right Rplus 0 rs) /\
  (forall r : R,
      funding_cashflows N [r] "long" = - N * r /\
      funding_cashflows N [r] "short" = N * r).
Proof.
  unfold funding_cashflows.
  rewrite side_long, side_short, np_sum_fold_right.
  repeat split; try lra.
  - rewrite np_sum_fold_right. simpl. lra.
  - rewrite np_sum_fold_right. simpl. lra.
Qed.

(** C10: on the empty rate sequence [funding_cashflows] returns 0 for
    both sides; the function has no operation that could raise. *)
Theorem funding_cashflows_empty (N : R) :
  funding_cashflows N [] "long" = 0 /\
  funding_cashflows N [] "short" = 0.
Proof.
  unfold funding_cashflows, np_sum. simpl. split; lra.
Qed.

(** C8: permuting the funding-rate sequence does not change the value of
    [funding_cashflows], for any notional and any side. *)
Theorem funding_cashflows_permutation (N : R) (side : string)
    (rs rs' : list R) :
  Permutation rs rs' ->
  funding_cashflows N rs side = funding_cashflows N rs' side.
Proof.
  intros HP. unfold funding_cashflows.
  rewrite !np_sum_fold_right.
  now rewrite (fold_right_Rplus_perm rs rs' HP).
Qed.

Lemma funding_cashflows_permutation_witness :
  Permutation [0.0001; -0.0002; 0.0003] [0.0003; 0.0001; -0.0002] /\
  funding_cashflows 100 [0.0001; -0.0002; 0.0003] "long" =
  funding_cashflows 100 [0.0003; 0.0001; -0.0002] "long".
Proof.
  assert (HP : Permutation [0.0001; -0.0002; 0.0003]
                           [0.0003; 0.0001; -0.0002]).
  { apply Permutation_sym.
    apply (Permutation_cons_app [0.0001; -0.0002] [] 0.0003).
    apply Permutation_refl. }
  split; [exact HP | exact (funding_cashflows_permutation 100 "long" _ _ HP)].
Defined.

(** C2: [cash_and_carry_pnl] returns the short-side funding cashflows on
    the notional [spot_qty * entry_price] minus the fees
    [notional * (fees_bps_per_leg / 10000) * 2]; on the documented example
    the two cancel and the result is 0. *)
Theorem cash_and_carry_pnl_formula (spot_qty entry_price : R)
    (rs : list R) (fees_bps_per_leg : R) :
  cash_and_carry_pnl spot_qty entry_price rs fees_bps_per_leg =
    Ok (funding_cashflows (spot_qty * entry_price) rs "short"
        - spot_qty * entry_price * (fees_bps_per_leg / 10000) * 2) /\
  cash_and_carry_pnl 1.0 100.0 [0.0001; 0.0001] 1.0 = Ok 0.0.
Proof.
  unfold cash_and_carry_pnl.
  rewrite !float_div_nonzero by lra. simpl.
  split; f_equal.
  - lra.
  - unfold funding_cashflows, np_sum. simpl. lra.
Qed.

(** ** Funding prediction *)

(** C3: [predicted_funding_from_premium p i] is
    [p + max(-0.0005, min(0.0005, i - p))], [clamp x lo hi] being
    [max(lo, min(hi, x))]; with the default interest, premium 0.01 gives
    0.0095. *)
Theorem predicted_funding_from_premium_formula (p i : R) :
  predicted_funding_from_premium p i
    = p + Rmax (- 0.0005) (Rmin 0.0005 (i - p)) /\
  (forall x lo hi : R, clamp x lo hi = Rmax lo (Rmin hi x)) /\
  predicted_funding_from_premium 0.01 interest_per_interval_default = 0.0095.
Proof.
  unfold predicted_funding_from_premium.
  repeat split.
  - now rewrite clamp_Rmax_Rmin.
  - intros x lo hi. apply clamp_Rmax_Rmin.
  - unfold interest_per_interval_default, clamp, py_max, py_min.
    case_comparisons; lra.
Qed.

(** C9, as stated, at premium 0.0003 and interest 0.0001 (a difference
    inside the band): in binary64 the sum [p + (i - p)] is rounded, and the
    function returns 9.999999999999999e-05, not the interest rate. *)
Lemma predicted_funding_rounds_in_binary64 :
  PrimFloat.leb (PrimFloat.abs (0.0001 - 0.0003)) 0.0005 = true /\
  Binary64.predicted_funding_from_premium 0.0003 0.0001
    = 9.999999999999999e-05%float /\
  PrimFloat.eqb (Binary64.predicted_funding_from_premium 0.0003 0.0001)
                0.0001 = false.
Proof.
  repeat split; vm_compute; reflexivity.
Qed.

(** C9, amended: in exact real arithmetic, when
    [interest_per_interval - premium_index] lies in the clamp band, the
    premium cancels and the predicted rate is the interest rate itself. *)
Theorem predicted_funding_inside_band (p i : R) :
  Rabs (i - p) <= 0.0005 ->
  predicted_funding_from_premium p i = i.
Proof.
  intros H.
  assert (Hb : - 0.0005 <= i - p <= 0.0005).
  { revert H. unfold Rabs. destruct (Rcase_abs (i - p)); lra. }
  unfold predicted_funding_from_premium, clamp, py_max, py_min.
  case_comparisons; lra.
Qed.

Lemma predicted_funding_inside_band_witness :
  Rabs (0.0001 - 0.0003) <= 0.0005 /\
  predicted_funding_from_premium 0.0003 0.0001 = 0.0001.
Proof.
  assert (H : Rabs (0.0001 - 0.0003) <= 0.0005).
  { apply Rabs_le. lra. }
  split; [exact H | exact (predicted_funding_inside_band 0.0003 0.0001 H)].
Defined.

(** ** Time utility *)

(** C6: for every pair of timestamps [year_fraction] raises nothing and
    returns [max(1e-12, (end - start) / (365 * 86400))], which is at
    least 1e-12 and strictly positive, inverted and empty intervals
    included. *)
Theorem year_fraction_floor (start_ts end_ts : R) :
  exists v : R,
    year_fraction start_ts end_ts = Ok v /\
    v = Rmax 1e-12 ((end_ts - start_ts) / (365 * 86400)) /\
    1e-12 <= v /\ 0 < v.
Proof.
  unfold year_fraction.
  rewrite float_div_nonzero by lra. simpl.
  eexists. split; [reflexivity |].
  rewrite py_max_Rmax.
  replace (365.0 * 24.0 * 3600.0) with (365 * 86400) by lra.
  pose proof (Rmax_l 1e-12 ((end_ts - start_ts) / (365 * 86400))) as Hl.
  repeat split; lra.
Qed.

(** ** Pricing *)

(** C5: [basis F S] fails with the division error exactly when [S = 0];
    the error is the function's outcome, nothing inside catches it.
    Otherwise the function returns [(F - S) / S]. *)
Theorem basis_division_error (F S : R) :
  (basis F S = Raise ZeroDivisionError <-> S = 0) /\
  (S <> 0 -> basis F S = Ok ((F - S) / S)).
Proof.
  unfold basis. split.
  - apply float_div_raises_iff.
  - apply float_div_nonzero.
Qed.

Lemma basis_division_error_witness :
  basis 110 0 = Raise ZeroDivisionError /\
  (100 <> 0 /\ basis 110 100 = Ok ((110 - 100) / 100)).
Proof.
  split.
  - apply (proj1 (basis_division_error 110 0)). reflexivity.
  - assert (H : 100 <> 0) by lra.
    split; [exact H | exact (proj2 (basis_division_error 110 100) H)].
Defined.


(** With a positive exponent [**] never raises. *)
Lemma float_pow_pos_exponent (iv iw : R) :
  0 < iw -> exists v : pyval, float_pow iv iw = Ok v.
Proof.
  intros Hiw. unfold float_pow.
  destruct (Req_dec_T iw 0) as [E | _]; [lra |].
  destruct (Req_dec_T iv 0) as [_ | _].
  - destruct (Rlt_dec iw 0) as [L | _]; [lra | eauto].
  - destruct (Rlt_dec iv 0) as [_ | _]; [| eauto].
    destruct (Req_dec_T iw (IZR (Zfloor iw))); eauto.
Qed.


Lemma annualize_basis_pos_tenor (b T : R) :
  0 < T ->
  annualize_basis b T =
    (p <- float_pow (1 + b) (1 / T) ;; Ok (pyval_sub p 1)).
Proof.
  intros HT. unfold annualize_basis.
  destruct (Rle_dec T 0) as [L | _]; [lra |].
  rewrite float_div_nonzero by lra. simpl.
  replace (1.0 + b) with (1 + b) by lra.
  replace (1.0 / T) with (1 / T) by lra.
  replace 1.0 with 1 by lra. reflexivity.
Qed.


(** The range limit is positive and above every power that matters
    below. *)
Lemma float_range_limit_pos : 0 < Ranged.float_range_limit.
Proof. unfold Ranged.float_range_limit. apply pow_lt. lra. Qed.

Lemma check_range_overflow (x : R) :
  Ranged.float_range_limit <= x ->
  Ranged.check_range x = Raise OverflowError.
Proof.
  intros H. pose proof float_range_limit_pos as Hpos.
  unfold Ranged.check_range.
  destruct (Rle_dec Ranged.float_range_limit (Rabs x)) as [_ | N];
    [reflexivity |].
  exfalso. apply N. rewrite Rabs_pos_eq by lra. assumption.
Qed.

Lemma check_range_in_range (x : R) :
  Rabs x < Ranged.float_range_limit -> Ranged.check_range x = Ok x.
Proof.
  intros H. unfold Ranged.check_range.
  destruct (Rle_dec Ranged.float_range_limit (Rabs x)) as [L | _];
    [lra | reflexivity].
Qed.

(** With the range check the positive-base power either is the real
    power or overflows. *)
Lemma ranged_float_pow_pos (iv iw : R) :
  0 < iv -> iw <> 0 ->
  Ranged.float_pow iv iw
    = (ix <- Ranged.check_range (Rpower iv iw) ;; Ok (PyFloat ix)).
Proof.
  intros Hiv Hiw. unfold Ranged.float_pow.
  destruct (Req_dec_T iw 0) as [E | _]; [contradiction |].
  destruct (Req_dec_T iv 0) as [E | _]; [lra |].
  destruct (Rlt_dec iv 0) as [L | _]; [lra | reflexivity].
Qed.

Lemma ranged_annualize_basis_pos (b T : R) :
  0 < T -> 0 < 1 + b ->
  Ranged.annualize_basis b T
    = (ix <- Ranged.check_range (Rpower (1 + b) (1 / T)) ;;
       Ok (PyFloat (ix - 1))).
Proof.
  intros HT Hb. unfold Ranged.annualize_basis.
  destruct (Rle_dec T 0) as [L | _]; [lra |].
  rewrite float_div_nonzero by lra. simpl.
  replace (1.0 + b) with (1 + b) by lra.
  replace (1.0 / T) with (1 / T) by lra.
  assert (HiT : 0 < 1 / T) by (apply Rdiv_pos_pos; lra).
  rewrite ranged_float_pow_pos by lra.
  destruct (Ranged.check_range (Rpower (1 + b) (1 / T))) as [ix | e];
    simpl; [| reflexivity].
  do 2 f_equal. lra.
Qed.

(** A basis of one percent or more compounded over 10^12 periods leaves
    the binary64 range. *)
Lemma compounding_leaves_range (b : R) :
  0.01 <= b -> Ranged.float_range_limit <= Rpower (1 + b) (1 / 1e-12).
Proof.
  intros Hb. unfold Ranged.float_range_limit.
  replace (1 / 1e-12) with (INR 100 * 10000000000)
    by (rewrite INR_IZR_INZ; simpl; lra).
  rewrite <- Rpower_mult, Rpower_pow by lra.
  assert (H2 : 2 <= (1 + b) ^ 100).
  { apply Rle_trans with ((1 + 0.01) ^ 100).
    - pose proof (poly 100 0.01) as HB.
      rewrite INR_IZR_INZ in HB. simpl in HB. lra.
    - apply pow_incr. lra. }
  apply Rle_trans with (Rpower 2 10000000000).
  - rewrite <- (Rpower_pow 1024 2) by lra.
    apply Rle_Rpower; [lra |].
    rewrite INR_IZR_INZ. simpl. lra.
  - apply Rle_Rpower_l; lra.
Qed.

Lemma ranged_annualize_basis_overflow (b : R) :
  0.01 <= b -> Ranged.annualize_basis b 1e-12 = Raise OverflowError.
Proof.
  intros Hb. rewrite ranged_annualize_basis_pos by lra.
  rewrite check_range_overflow by (apply compounding_leaves_range; lra).
  reflexivity.
Qed.




(** At zero time to expiry the fair price is the spot price. *)
Lemma cost_of_carry_fair_price_at_expiry (S r c : R) :
  cost_of_carry_fair_price S r c 0 = S.
Proof.
  unfold cost_of_carry_fair_price. rewrite Rmult_0_r, exp_0. lra.
Qed.

(** A forward at the spot price has no basis. *)
Lemma basis_at_spot (S : R) : S <> 0 -> basis S S = Ok 0.
Proof.
  intros HS. unfold basis. rewrite float_div_nonzero by assumption.
  f_equal. field. assumption.
Qed.

(** ** Round trip through the three pricing functions *)







(** * Further properties of the functions *)

(** ** [year_fraction] *)

Lemma year_fraction_value (start_ts end_ts : R) :
  year_fraction start_ts end_ts
    = Ok (Rmax 1e-12 ((end_ts - start_ts) / 31536000)).
Proof.
  unfold year_fraction.
  rewrite float_div_nonzero by lra. simpl.
  rewrite py_max_Rmax.
  replace (365.0 * 24.0 * 3600.0) with 31536000 by lra.
  reflexivity.
Qed.

(** X1: an interval of at least 3.1536e-5 seconds (1e-12 of a 365-day
    year) is above the floor, and [year_fraction] returns its plain
    ACT/365 fraction. *)
Theorem year_fraction_above_floor (start_ts end_ts : R) :
  0.000031536 <= end_ts - start_ts ->
  year_fraction start_ts end_ts = Ok ((end_ts - start_ts) / 31536000).
Proof.
  intros H. rewrite year_fraction_value. f_equal.
  apply Rmax_right. lra.
Qed.

Lemma year_fraction_above_floor_witness :
  0.000031536 <= 31536000 - 0 /\
  year_fraction 0 31536000 = Ok ((31536000 - 0) / 31536000).
Proof.
  assert (H : 0.000031536 <= 31536000 - 0) by lra.
  split; [exact H | exact (year_fraction_above_floor 0 31536000 H)].
Defined.

(** X2: every interval shorter than that, the empty and the inverted
    ones included, gives the same value 1e-12: the length and the
    direction of such an interval are lost. *)
Theorem year_fraction_degenerate (start_ts end_ts : R) :
  end_ts - start_ts <= 0.000031536 ->
  year_fraction start_ts end_ts = Ok 1e-12.
Proof.
  intros H. rewrite year_fraction_value. f_equal.
  apply Rmax_left. lra.
Qed.

Lemma year_fraction_degenerate_witness :
  1000 - 90000 <= 0.000031536 /\ year_fraction 90000 1000 = Ok 1e-12.
Proof.
  assert (H : 1000 - 90000 <= 0.000031536) by lra.
  split; [exact H | exact (year_fraction_degenerate 90000 1000 H)].
Defined.

(** X3: [year_fraction] grows with the interval: moving the start
    earlier or the end later never makes the result smaller. *)
Theorem year_fraction_monotone (s s' e e' : R) :
  s' <= s -> e <= e' ->
  exists v v' : R,
    year_fraction s e = Ok v /\ year_fraction s' e' = Ok v' /\ v <= v'.
Proof.
  intros Hs He. rewrite !year_fraction_value.
  do 2 eexists. split; [reflexivity |]. split; [reflexivity |].
  apply Rle_max_compat_l. lra.
Qed.

Lemma year_fraction_monotone_witness :
  0 <= 10 /\ 86400 <= 172800 /\
  exists v v' : R,
    year_fraction 10 86400 = Ok v /\ year_fraction 0 172800 = Ok v' /\
    v <= v'.
Proof.
  assert (Hs : 0 <= 10) by lra.
  assert (He : 86400 <= 172800) by lra.
  split; [exact Hs |]. split; [exact He |].
  exact (year_fraction_monotone 10 0 86400 172800 Hs He).
Defined.

(** ** [cost_of_carry_fair_price] *)

Lemma exp_le_compat (x y : R) : x <= y -> exp x <= exp y.
Proof.
  intros [L | E].
  - left. now apply exp_increasing.
  - subst. lra.
Qed.

Lemma exp_INR (n : nat) : exp (INR n) = exp 1 ^ n.
Proof.
  induction n as [| n IH].
  - simpl. apply exp_0.
  - rewrite S_INR, exp_plus, IH. simpl. lra.
Qed.

(** [math.exp] stays in range up to the argument 600 ... *)
Lemma exp_in_range (x : R) :
  x <= 600 -> Rabs (exp x) < Ranged.float_range_limit.
Proof.
  intros Hx. pose proof (exp_pos x) as Hpos.
  rewrite Rabs_pos_eq by lra.
  apply Rle_lt_trans with (3 ^ 600).
  - apply Rle_trans with (exp 600); [now apply exp_le_compat |].
    replace 600 with (INR 600) by (rewrite INR_IZR_INZ; simpl; lra).
    rewrite exp_INR. apply pow_incr. split.
    + left. apply exp_pos.
    + apply exp_le_3.
  - unfold Ranged.float_range_limit.
    rewrite !pow_IZR. apply IZR_lt. vm_compute. reflexivity.
Qed.

(** ... and leaves it from the argument 1024 on. *)
Lemma exp_leaves_range (x : R) :
  1024 <= x -> Ranged.float_range_limit <= exp x.
Proof.
  intros Hx. unfold Ranged.float_range_limit.
  apply Rle_trans with (exp 1024); [| now apply exp_le_compat].
  replace 1024 with (INR 1024) by (rewrite INR_IZR_INZ; simpl; lra).
  rewrite exp_INR. apply pow_incr.
  pose proof (exp_ineq1_le 1). lra.
Qed.

Lemma ranged_fair_price_in_range (S r c T : R) :
  (r - c) * T <= 600 ->
  Ranged.cost_of_carry_fair_price S r c T = Ok (S * exp ((r - c) * T)).
Proof.
  intros Hx. unfold Ranged.cost_of_carry_fair_price.
  rewrite check_range_in_range by (now apply exp_in_range).
  reflexivity.
Qed.

(** X5: a net carry [(r - c) * T] of 1024 or more takes [math.exp] out of
    the binary64 range: [cost_of_carry_fair_price] raises
    [OverflowError] instead of returning a price. *)
Theorem cost_of_carry_fair_price_overflow (S r c T : R) :
  1024 <= (r - c) * T -> (r - c) * T <= 1e300 ->
  Ranged.cost_of_carry_fair_price S r c T = Raise OverflowError.
Proof.
  intros Hlo _. unfold Ranged.cost_of_carry_fair_price.
  rewrite check_range_overflow by (now apply exp_leaves_range).
  reflexivity.
Qed.

Lemma cost_of_carry_fair_price_overflow_witness :
  1024 <= (11 - 0) * 100 /\ (11 - 0) * 100 <= 1e300 /\
  Ranged.cost_of_carry_fair_price 100 11 0 100 = Raise OverflowError.
Proof.
  assert (Hlo : 1024 <= (11 - 0) * 100) by lra.
  assert (Hhi : (11 - 0) * 100 <= 1e300) by lra.
  split; [exact Hlo |]. split; [exact Hhi |].
  exact (cost_of_carry_fair_price_overflow 100 11 0 100 Hlo Hhi).
Defined.

(** X6: for a positive spot and a net carry [(r - c) * T] of at most 600
    the fair price is returned, it is not negative, and it is at least
    the spot when the net carry is not negative and at most the spot when
    the net carry is not positive. *)
Theorem cost_of_carry_fair_price_vs_spot (S r c T : R) :
  0 < S -> (r - c) * T <= 600 ->
  exists F : R,
    Ranged.cost_of_carry_fair_price S r c T = Ok F /\
    0 <= F /\
    (0 <= (r - c) * T -> S <= F) /\
    ((r - c) * T <= 0 -> F <= S).
Proof.
  intros HS Hx. rewrite ranged_fair_price_in_range by assumption.
  eexists. split; [reflexivity |].
  set (x := (r - c) * T) in *.
  pose proof (exp_pos x) as Hpos.
  split; [nra |]. split; intros H.
  - pose proof (exp_le_compat 0 x H) as He. rewrite exp_0 in He. nra.
  - pose proof (exp_le_compat x 0 H) as He. rewrite exp_0 in He. nra.
Qed.

Lemma cost_of_carry_fair_price_vs_spot_witness :
  0 < 100 /\ (0.05 - 0.01) * 1 <= 600 /\
  exists F : R,
    Ranged.cost_of_carry_fair_price 100 0.05 0.01 1 = Ok F /\
    0 <= F /\
    (0 <= (0.05 - 0.01) * 1 -> 100 <= F) /\
    ((0.05 - 0.01) * 1 <= 0 -> F <= 100).
Proof.
  assert (HS : 0 < 100) by lra.
  assert (Hx : (0.05 - 0.01) * 1 <= 600) by lra.
  split; [exact HS |]. split; [exact Hx |].
  exact (cost_of_carry_fair_price_vs_spot 100 0.05 0.01 1 HS Hx).
Defined.

(** X7: for a positive spot and net carries of at most 600 the fair
    price does not decrease with the time to expiry when the financing
    rate is at least the carry yield, and does not increase when it is at
    most the carry yield. *)
Theorem cost_of_carry_fair_price_monotone (S r c T1 T2 : R) :
  0 < S -> T1 <= T2 -> (r - c) * T1 <= 600 -> (r - c) * T2 <= 600 ->
  exists F1 F2 : R,
    Ranged.cost_of_carry_fair_price S r c T1 = Ok F1 /\
    Ranged.cost_of_carry_fair_price S r c T2 = Ok F2 /\
    (c <= r -> F1 <= F2) /\
    (r <= c -> F2 <= F1).
Proof.
  intros HS HT H1 H2. rewrite !ranged_fair_price_in_range by assumption.
  do 2 eexists. split; [reflexivity |]. split; [reflexivity |].
  split; intros Hrc.
  - apply Rmult_le_compat_l; [lra |]. apply exp_le_compat. nra.
  - apply Rmult_le_compat_l; [lra |]. apply exp_le_compat. nra.
Qed.

Lemma cost_of_carry_fair_price_monotone_witness :
  0 < 100 /\ 1 <= 2 /\ (0.05 - 0.01) * 1 <= 600 /\
  (0.05 - 0.01) * 2 <= 600 /\
  exists F1 F2 : R,
    Ranged.cost_of_carry_fair_price 100 0.05 0.01 1 = Ok F1 /\
    Ranged.cost_of_carry_fair_price 100 0.05 0.01 2 = Ok F2 /\
    (0.01 <= 0.05 -> F1 <= F2) /\
    (0.05 <= 0.01 -> F2 <= F1).
Proof.
  assert (HS : 0 < 100) by lra.
  assert (HT : 1 <= 2) by lra.
  assert (H1 : (0.05 - 0.01) * 1 <= 600) by lra.
  assert (H2 : (0.05 - 0.01) * 2 <= 600) by lra.
  split; [exact HS |]. split; [exact HT |].
  split; [exact H1 |]. split; [exact H2 |].
  exact (cost_of_carry_fair_price_monotone 100 0.05 0.01 1 2 HS HT H1 H2).
Defined.

(** ** [basis] *)

(** X10: for a positive spot the basis is positive exactly when the
    forward is above the spot and negative exactly when it is below, and
    a forward that is not negative has a basis of at least -1; for a
    negative spot the two signs are exchanged. *)
Theorem basis_sign (F S : R) :
  S <> 0 ->
  exists b : R,
    basis F S = Ok b /\
    (0 < S ->
       (0 < b <-> S < F) /\ (b < 0 <-> F < S) /\ (0 <= F -> -1 <= b)) /\
    (S < 0 -> (0 < b <-> F < S) /\ (b < 0 <-> S < F)).
Proof.
  intros HS. unfold basis. rewrite float_div_nonzero by assumption.
  eexists. split; [reflexivity |].
  assert (Hb : (F - S) / S * S = F - S) by (field; assumption).
  set (b := (F - S) / S) in *.
  split; intros Hs; repeat split; intros H; nra.
Qed.

Lemma basis_sign_witness :
  100 <> 0 /\
  exists b : R,
    basis 110 100 = Ok b /\
    (0 < 100 ->
       (0 < b <-> 100 < 110) /\ (b < 0 <-> 110 < 100) /\
       (0 <= 110 -> -1 <= b)) /\
    (100 < 0 -> (0 < b <-> 110 < 100) /\ (b < 0 <-> 100 < 110)).
Proof.
  assert (HS : 100 <> 0) by lra.
  split; [exact HS | exact (basis_sign 110 100 HS)].
Defined.

(** ** [annualize_basis] *)

(** [**] never produces NaN. *)
Lemma float_pow_not_nan (iv iw : R) : float_pow iv iw <> Ok PyNaN.
Proof.
  unfold float_pow, complex_pow. case_comparisons; discriminate.
Qed.

Lemma one_in_range : 1 < Ranged.float_range_limit.
Proof.
  unfold Ranged.float_range_limit.
  rewrite pow_IZR. apply IZR_lt. vm_compute. reflexivity.
Qed.

(** A base in (0, 1] under a positive exponent stays in (0, 1]. *)
Lemma Rpower_le_one (x y : R) :
  0 < x <= 1 -> 0 < y -> 0 < Rpower x y <= 1.
Proof.
  intros [Hx0 Hx1] Hy. unfold Rpower. split; [apply exp_pos |].
  rewrite <- exp_0. apply exp_le_compat.
  assert (Hln : ln x <= 0).
  { destruct Hx1 as [L | E].
    - left. rewrite <- ln_1. now apply ln_increasing.
    - subst. rewrite ln_1. lra. }
  nra.
Qed.

(** A base of at least 1 under a positive exponent gives at least 1. *)
Lemma Rpower_ge_one (x y : R) : 1 <= x -> 0 < y -> 1 <= Rpower x y.
Proof.
  intros Hx Hy. unfold Rpower.
  rewrite <- exp_0 at 1. apply exp_le_compat.
  assert (Hln : 0 <= ln x).
  { destruct Hx as [L | E].
    - left. rewrite <- ln_1. apply ln_increasing; lra.
    - subst. rewrite ln_1. lra. }
  nra.
Qed.

(** X4: the tenor [year_fraction] gives for an empty, inverted or
    sub-floor interval, 1e-12, makes [annualize_basis] raise
    [OverflowError] for every basis of one percent or more. *)
Theorem annualize_basis_overflow_at_floor (start_ts end_ts b : R) :
  end_ts - start_ts <= 0.000031536 -> 0.01 <= b ->
  (T <- year_fraction start_ts end_ts ;; Ranged.annualize_basis b T)
    = Raise OverflowError.
Proof.
  intros Hd Hb. rewrite year_fraction_value.
  rewrite Rmax_left by lra. simpl.
  now apply ranged_annualize_basis_overflow.
Qed.

Lemma annualize_basis_overflow_at_floor_witness :
  5 - 5 <= 0.000031536 /\ 0.01 <= 0.02 /\
  (T <- year_fraction 5 5 ;; Ranged.annualize_basis 0.02 T)
    = Raise OverflowError.
Proof.
  assert (Hd : 5 - 5 <= 0.000031536) by lra.
  assert (Hb : 0.01 <= 0.02) by lra.
  split; [exact Hd |]. split; [exact Hb |].
  exact (annualize_basis_overflow_at_floor 5 5 0.02 Hd Hb).
Defined.

(** X12: a basis of exactly -1 annualises to -1 over every positive
    tenor, without raising. *)
Theorem annualize_basis_total_loss (T : R) :
  0 < T -> Ranged.annualize_basis (-1) T = Ok (PyFloat (-1)).
Proof.
  intros HT. unfold Ranged.annualize_basis.
  destruct (Rle_dec T 0) as [L | _]; [lra |].
  rewrite float_div_nonzero by lra. simpl.
  assert (HiT : 0 < 1.0 / T) by (apply Rdiv_pos_pos; lra).
  unfold Ranged.float_pow.
  destruct (Req_dec_T (1.0 / T) 0) as [E | _]; [lra |].
  destruct (Req_dec_T (1.0 + -1) 0) as [_ | N]; [| lra].
  destruct (Rlt_dec (1.0 / T) 0) as [L | _]; [lra |].
  simpl. do 2 f_equal. lra.
Qed.

Lemma annualize_basis_total_loss_witness :
  0 < 0.25 /\ Ranged.annualize_basis (-1) 0.25 = Ok (PyFloat (-1)).
Proof.
  assert (HT : 0 < 0.25) by lra.
  split; [exact HT | exact (annualize_basis_total_loss 0.25 HT)].
Defined.

(** X13: for a positive tenor and a basis above -1: a basis that is not
    positive annualises, without raising, to a rate between -1 and 0; a
    basis that is not negative either annualises to a rate that is not
    negative or makes the power overflow. *)
Theorem annualize_basis_sign (b T : R) :
  0 < T -> 0 < 1 + b ->
  (b <= 0 ->
     exists a : R,
       Ranged.annualize_basis b T = Ok (PyFloat a) /\ -1 <= a <= 0) /\
  (0 <= b ->
     (exists a : R,
        Ranged.annualize_basis b T = Ok (PyFloat a) /\ 0 <= a) \/
     Ranged.annualize_basis b T = Raise OverflowError).
Proof.
  intros HT Hb.
  assert (HiT : 0 < 1 / T) by (apply Rdiv_pos_pos; lra).
  rewrite ranged_annualize_basis_pos by assumption.
  split; intros Hb0.
  - destruct (Rpower_le_one (1 + b) (1 / T)) as [Hp0 Hp1]; [lra | lra |].
    pose proof one_in_range as H1.
    rewrite check_range_in_range by (rewrite Rabs_pos_eq; lra).
    simpl. eexists. split; [reflexivity | lra].
  - pose proof (Rpower_ge_one (1 + b) (1 / T)) as Hp.
    unfold Ranged.check_range.
    destruct (Rle_dec Ranged.float_range_limit
                (Rabs (Rpower (1 + b) (1 / T)))) as [_ | _]; simpl.
    + right. reflexivity.
    + left. eexists. split; [reflexivity |].
      assert (1 <= Rpower (1 + b) (1 / T)) by (apply Hp; lra). lra.
Qed.

Lemma annualize_basis_sign_witness :
  0 < 0.5 /\ 0 < 1 + -0.1 /\ -0.1 <= 0 /\
  exists a : R,
    Ranged.annualize_basis (-0.1) 0.5 = Ok (PyFloat a) /\ -1 <= a <= 0.
Proof.
  assert (HT : 0 < 0.5) by lra.
  assert (Hb : 0 < 1 + -0.1) by lra.
  assert (Hb0 : -0.1 <= 0) by lra.
  split; [exact HT |]. split; [exact Hb |]. split; [exact Hb0 |].
  exact (proj1 (annualize_basis_sign (-0.1) 0.5 HT Hb) Hb0).
Defined.

(** X14: for a fixed positive tenor a larger basis (above -1) never
    annualises to a smaller rate: either both rates are returned, in the
    same order as the bases, or the larger basis overflows. *)
Theorem annualize_basis_monotone_basis (b1 b2 T : R) :
  0 < T -> 0 < 1 + b1 -> b1 <= b2 ->
  (exists a1 a2 : R,
     Ranged.annualize_basis b1 T = Ok (PyFloat a1) /\
     Ranged.annualize_basis b2 T = Ok (PyFloat a2) /\ a1 <= a2) \/
  Ranged.annualize_basis b2 T = Raise OverflowError.
Proof.
  intros HT Hb1 Hle.
  assert (HiT : 0 < 1 / T) by (apply Rdiv_pos_pos; lra).
  rewrite !ranged_annualize_basis_pos by lra.
  assert (Hmono : Rpower (1 + b1) (1 / T) <= Rpower (1 + b2) (1 / T)).
  { apply Rle_Rpower_l; lra. }
  assert (Hp1 : 0 < Rpower (1 + b1) (1 / T)) by (unfold Rpower; apply exp_pos).
  assert (Hp2 : 0 < Rpower (1 + b2) (1 / T)) by (unfold Rpower; apply exp_pos).
  destruct (Rle_dec Ranged.float_range_limit (Rpower (1 + b2) (1 / T)))
    as [Hover | Hin].
  - right. rewrite check_range_overflow by assumption. reflexivity.
  - left.
    rewrite !check_range_in_range by (rewrite Rabs_pos_eq; lra).
    simpl. do 2 eexists.
    split; [reflexivity |]. split; [reflexivity | lra].
Qed.

Lemma annualize_basis_monotone_basis_witness :
  0 < 0.5 /\ 0 < 1 + 0.01 /\ 0.01 <= 0.02 /\
  ((exists a1 a2 : R,
      Ranged.annualize_basis 0.01 0.5 = Ok (PyFloat a1) /\
      Ranged.annualize_basis 0.02 0.5 = Ok (PyFloat a2) /\ a1 <= a2) \/
   Ranged.annualize_basis 0.02 0.5 = Raise OverflowError).
Proof.
  assert (HT : 0 < 0.5) by lra.
  assert (Hb : 0 < 1 + 0.01) by lra.
  assert (Hle : 0.01 <= 0.02) by lra.
  split; [exact HT |]. split; [exact Hb |]. split; [exact Hle |].
  exact (annualize_basis_monotone_basis 0.01 0.02 0.5 HT Hb Hle).
Defined.

(** X15: a basis that is not negative, earned over a longer tenor, never
    annualises to a larger rate: either both rates are returned, the one
    for the longer tenor being the smaller, or the shorter tenor
    overflows. *)
Theorem annualize_basis_longer_tenor (b T1 T2 : R) :
  0 <= b -> 0 < T1 -> T1 <= T2 ->
  (exists a1 a2 : R,
     Ranged.annualize_basis b T1 = Ok (PyFloat a1) /\
     Ranged.annualize_basis b T2 = Ok (PyFloat a2) /\ a2 <= a1) \/
  Ranged.annualize_basis b T1 = Raise OverflowError.
Proof.
  intros Hb HT1 HT.
  rewrite !ranged_annualize_basis_pos by lra.
  assert (Hinv : 1 / T2 <= 1 / T1).
  { unfold Rdiv. rewrite !Rmult_1_l. apply Rinv_le_contravar; lra. }
  assert (Hmono : Rpower (1 + b) (1 / T2) <= Rpower (1 + b) (1 / T1)).
  { apply Rle_Rpower; lra. }
  assert (Hp1 : 0 < Rpower (1 + b) (1 / T1)) by (unfold Rpower; apply exp_pos).
  assert (Hp2 : 0 < Rpower (1 + b) (1 / T2)) by (unfold Rpower; apply exp_pos).
  destruct (Rle_dec Ranged.float_range_limit (Rpower (1 + b) (1 / T1)))
    as [Hover | Hin].
  - right. rewrite check_range_overflow by assumption. reflexivity.
  - left.
    rewrite !check_range_in_range by (rewrite Rabs_pos_eq; lra).
    simpl. do 2 eexists.
    split; [reflexivity |]. split; [reflexivity | lra].
Qed.

Lemma annualize_basis_longer_tenor_witness :
  0 <= 0.02 /\ 0 < 0.25 /\ 0.25 <= 0.5 /\
  ((exists a1 a2 : R,
      Ranged.annualize_basis 0.02 0.25 = Ok (PyFloat a1) /\
      Ranged.annualize_basis 0.02 0.5 = Ok (PyFloat a2) /\ a2 <= a1) \/
   Ranged.annualize_basis 0.02 0.25 = Raise OverflowError).
Proof.
  assert (Hb : 0 <= 0.02) by lra.
  assert (HT1 : 0 < 0.25) by lra.
  assert (HT : 0.25 <= 0.5) by lra.
  split; [exact Hb |]. split; [exact HT1 |]. split; [exact HT |].
  exact (annualize_basis_longer_tenor 0.02 0.25 0.5 Hb HT1 HT).
Defined.

(** X17: a basis below -1 over a tenor longer than a year does not
    annualise to a float: the result is a complex number with a positive
    imaginary part. *)
Theorem annualize_basis_complex (b T : R) :
  1 + b < 0 -> 1 < T ->
  exists re im : R,
    annualize_basis b T = Ok (PyComplex re im) /\ 0 < im.
Proof.
  intros Hb HT.
  assert (Hlo : 0 < 1 / T) by (apply Rdiv_pos_pos; lra).
  assert (Hhi : 1 / T < 1).
  { apply Rmult_lt_reg_r with T; [lra |].
    replace (1 / T * T) with 1 by (field; lra). lra. }
  assert (Hfl : Zfloor (1 / T) = 0%Z).
  { apply Zfloor_eq. simpl. lra. }
  rewrite annualize_basis_pos_tenor by lra.
  unfold float_pow.
  destruct (Req_dec_T (1 / T) 0) as [E | _]; [lra |].
  destruct (Req_dec_T (1 + b) 0) as [E | _]; [lra |].
  destruct (Rlt_dec (1 + b) 0) as [_ | G]; [| lra].
  rewrite Hfl.
  destruct (Req_dec_T (1 / T) 0) as [E | _]; [lra |].
  simpl. do 2 eexists. split; [reflexivity |].
  apply Rmult_lt_0_compat.
  - unfold Rpower. apply exp_pos.
  - pose proof PI_RGT_0 as HPI.
    apply sin_gt_0; [nra |].
    replace PI with (PI * 1) at 2 by lra.
    apply Rmult_lt_compat_l; assumption.
Qed.

Lemma annualize_basis_complex_witness :
  1 + -2 < 0 /\ 1 < 2 /\
  exists re im : R,
    annualize_basis (-2) 2 = Ok (PyComplex re im) /\ 0 < im.
Proof.
  assert (Hb : 1 + -2 < 0) by lra.
  assert (HT : 1 < 2) by lra.
  split; [exact Hb |]. split; [exact HT |].
  exact (annualize_basis_complex (-2) 2 Hb HT).
Defined.

(** X18: the NaN sentinel signals a non-positive tenor and nothing else:
    [annualize_basis] returns NaN exactly when [T <= 0]. *)
Theorem annualize_basis_nan_iff (b T : R) :
  annualize_basis b T = Ok PyNaN <-> T <= 0.
Proof.
  split.
  - intros H. destruct (Rle_dec T 0) as [L | G]; [assumption |].
    exfalso. rewrite annualize_basis_pos_tenor in H by lra.
    pose proof (float_pow_not_nan (1 + b) (1 / T)) as Hnan.
    destruct (float_pow (1 + b) (1 / T)) as [[x | | re im] | e];
      simpl in H; try discriminate.
    now apply Hnan.
  - intros H. unfold annualize_basis.
    destruct (Rle_dec T 0) as [_ | G]; [reflexivity | lra].
Qed.

Lemma annualize_basis_nan_iff_witness :
  -1 <= 0 /\ annualize_basis 0.1 (-1) = Ok PyNaN.
Proof.
  assert (H : -1 <= 0) by lra.
  split; [exact H | exact (proj2 (annualize_basis_nan_iff 0.1 (-1)) H)].
Defined.

(** X19: a tenor computed by [year_fraction] never makes
    [annualize_basis] fall back to the NaN sentinel. *)
Theorem annualize_basis_after_year_fraction (start_ts end_ts b T : R) :
  year_fraction start_ts end_ts = Ok T ->
  annualize_basis b T <> Ok PyNaN.
Proof.
  intros HT Hnan.
  rewrite year_fraction_value in HT. injection HT as <-.
  pose proof (Rmax_l 1e-12 ((end_ts - start_ts) / 31536000)) as Hl.
  set (T := Rmax 1e-12 ((end_ts - start_ts) / 31536000)) in *.
  assert (HT : 0 < T) by lra.
  rewrite annualize_basis_pos_tenor in Hnan by assumption.
  pose proof (float_pow_not_nan (1 + b) (1 / T)) as Hp.
  destruct (float_pow (1 + b) (1 / T)) as [[x | | re im] | e];
    simpl in Hnan; try discriminate.
  now apply Hp.
Qed.

Lemma annualize_basis_after_year_fraction_witness :
  year_fraction 5 5 = Ok 1e-12 /\ annualize_basis 0.01 1e-12 <> Ok PyNaN.
Proof.
  assert (H : year_fraction 5 5 = Ok 1e-12).
  { rewrite year_fraction_value. f_equal. apply Rmax_left. lra. }
  split; [exact H |].
  exact (annualize_basis_after_year_fraction 5 5 0.01 1e-12 H).
Defined.

(** ** [funding_cashflows] *)

Lemma funding_cashflows_value (N : R) (rs : list R) (side : string) :
  funding_cashflows N rs side
    = N * (if String.eqb side "long" then -1 else 1)
      * fold_right Rplus 0 rs.
Proof.
  unfold funding_cashflows. rewrite np_sum_fold_right.
  destruct (String.eqb side "long"); lra.
Qed.

Lemma fold_right_Rplus_nonneg (xs : list R) :
  Forall (fun r => 0 <= r) xs -> 0 <= fold_right Rplus 0 xs.
Proof.
  induction 1 as [| x xs Hx _ IH]; simpl; lra.
Qed.

Lemma fold_right_Rplus_nonpos (xs : list R) :
  Forall (fun r => r <= 0) xs -> fold_right Rplus 0 xs <= 0.
Proof.
  induction 1 as [| x xs Hx _ IH]; simpl; lra.
Qed.

(** X20: funding is a transfer between the two sides: on the same
    notional and rates, what the long side pays is what the short side
    receives. *)
Theorem funding_cashflows_zero_sum (N : R) (rs : list R) :
  funding_cashflows N rs "long" + funding_cashflows N rs "short" = 0.
Proof.
  rewrite !funding_cashflows_value. simpl. lra.
Qed.

(** X21: the side is not validated: every string other than "long",
    such as "LONG" or the empty string, is treated as "short". *)
Theorem funding_cashflows_side_fallback (N : R) (rs : list R)
    (side : string) :
  side <> "long"%string ->
  funding_cashflows N rs side = funding_cashflows N rs "short".
Proof.
  intros Hs. rewrite !funding_cashflows_value.
  apply String.eqb_neq in Hs. rewrite Hs. reflexivity.
Qed.

Lemma funding_cashflows_side_fallback_witness :
  "LONG"%string <> "long"%string /\
  funding_cashflows 100 [0.0001] "LONG" = funding_cashflows 100 [0.0001] "short".
Proof.
  assert (H : "LONG"%string <> "long"%string) by discriminate.
  split; [exact H |].
  exact (funding_cashflows_side_fallback 100 [0.0001] "LONG" H).
Defined.

(** X23: with a non-negative notional and no negative rate the long
    side never receives and the short side never pays. *)
Theorem funding_cashflows_sign (N : R) (rs : list R) :
  0 <= N -> Forall (fun r => 0 <= r) rs ->
  funding_cashflows N rs "long" <= 0 /\
  0 <= funding_cashflows N rs "short".
Proof.
  intros HN Hrs. rewrite !funding_cashflows_value. simpl.
  pose proof (fold_right_Rplus_nonneg rs Hrs). split; nra.
Qed.

Lemma funding_cashflows_sign_witness :
  0 <= 100 /\ Forall (fun r => 0 <= r) [0.0001; 0.0003] /\
  funding_cashflows 100 [0.0001; 0.0003] "long" <= 0 /\
  0 <= funding_cashflows 100 [0.0001; 0.0003] "short".
Proof.
  assert (HN : 0 <= 100) by lra.
  assert (Hrs : Forall (fun r => 0 <= r) [0.0001; 0.0003]).
  { repeat constructor; lra. }
  split; [exact HN |]. split; [exact Hrs |].
  exact (funding_cashflows_sign 100 [0.0001; 0.0003] HN Hrs).
Defined.

(** ** [cash_and_carry_pnl] *)

Lemma cash_and_carry_pnl_value (q p : R) (rs : list R) (fee : R) :
  cash_and_carry_pnl q p rs fee
    = Ok (q * p * (fold_right Rplus 0 rs - fee / 5000)).
Proof.
  unfold cash_and_carry_pnl.
  rewrite float_div_nonzero by lra. simpl.
  rewrite funding_cashflows_value. simpl. f_equal. lra.
Qed.

(** X24: on a notional that is not negative, a trade with no positive
    funding rate and no negative fee never gains, and a trade with no
    negative funding rate and no positive fee never loses. *)
Theorem cash_and_carry_pnl_sign (q p : R) (rs : list R) (fee : R) :
  0 <= q * p ->
  exists v : R,
    cash_and_carry_pnl q p rs fee = Ok v /\
    (Forall (fun r => r <= 0) rs -> 0 <= fee -> v <= 0) /\
    (Forall (fun r => 0 <= r) rs -> fee <= 0 -> 0 <= v).
Proof.
  intros HN. rewrite cash_and_carry_pnl_value.
  eexists. split; [reflexivity |].
  split; intros Hrs Hfee.
  - pose proof (fold_right_Rplus_nonpos rs Hrs). nra.
  - pose proof (fold_right_Rplus_nonneg rs Hrs). nra.
Qed.

Lemma cash_and_carry_pnl_sign_witness :
  0 <= 1 * 100 /\ Forall (fun r => r <= 0) [-0.0001; 0] /\ 0 <= 2.5 /\
  exists v : R,
    cash_and_carry_pnl 1 100 [-0.0001; 0] 2.5 = Ok v /\ v <= 0.
Proof.
  assert (HN : 0 <= 1 * 100) by lra.
  assert (Hrs : Forall (fun r => r <= 0) [-0.0001; 0]).
  { repeat constructor; lra. }
  assert (Hfee : 0 <= 2.5) by lra.
  split; [exact HN |]. split; [exact Hrs |]. split; [exact Hfee |].
  destruct (cash_and_carry_pnl_sign 1 100 [-0.0001; 0] 2.5 HN)
    as [v [Hv [Hloss _]]].
  exists v. split; [exact Hv | exact (Hloss Hrs Hfee)].
Defined.

(** X25: the fee is proportional to the signed notional: a higher fee
    never raises the result on a notional that is not negative, and never
    lowers it on a notional that is not positive (a negative quantity or
    price), where the fee is credited. *)
Theorem cash_and_carry_pnl_fee_direction (q p : R) (rs : list R)
    (fee1 fee2 : R) :
  fee1 <= fee2 ->
  exists v1 v2 : R,
    cash_and_carry_pnl q p rs fee1 = Ok v1 /\
    cash_and_carry_pnl q p rs fee2 = Ok v2 /\
    (0 <= q * p -> v2 <= v1) /\
    (q * p <= 0 -> v1 <= v2).
Proof.
  intros Hf. rewrite !cash_and_carry_pnl_value.
  do 2 eexists. split; [reflexivity |]. split; [reflexivity |].
  split; intros HN; nra.
Qed.

Lemma cash_and_carry_pnl_fee_direction_witness :
  1 <= 2 /\
  exists v1 v2 : R,
    cash_and_carry_pnl (-1) 100 [0.0001] 1 = Ok v1 /\
    cash_and_carry_pnl (-1) 100 [0.0001] 2 = Ok v2 /\
    (0 <= -1 * 100 -> v2 <= v1) /\
    (-1 * 100 <= 0 -> v1 <= v2).
Proof.
  assert (Hf : 1 <= 2) by lra.
  split; [exact Hf |].
  exact (cash_and_carry_pnl_fee_direction (-1) 100 [0.0001] 1 2 Hf).
Defined.

(** ** [clamp] and [predicted_funding_from_premium] *)

(** X27: with bounds in order the clamped value lies between them, and a
    value already between them is returned unchanged. *)
Theorem clamp_within_bounds (x lo hi : R) :
  lo <= hi ->
  lo <= clamp x lo hi <= hi /\
  (lo <= x <= hi -> clamp x lo hi = x).
Proof.
  intros H. unfold clamp, py_max, py_min.
  case_comparisons; split; intros; lra.
Qed.

Lemma clamp_within_bounds_witness :
  -0.0005 <= 0.0005 /\
  -0.0005 <= clamp 0.002 (-0.0005) 0.0005 <= 0.0005.
Proof.
  assert (H : -0.0005 <= 0.0005) by lra.
  split; [exact H |].
  exact (proj1 (clamp_within_bounds 0.002 (-0.0005) 0.0005 H)).
Defined.

(** X28: with the bounds given in the wrong order (upper below lower)
    [clamp] returns the lower bound whatever the value. *)
Theorem clamp_inverted_bounds (x lo hi : R) :
  hi < lo -> clamp x lo hi = lo.
Proof.
  intros H. unfold clamp, py_max, py_min.
  case_comparisons; lra.
Qed.

Lemma clamp_inverted_bounds_witness :
  -0.0005 < 0.0005 /\ clamp 0.0001 0.0005 (-0.0005) = 0.0005.
Proof.
  assert (H : -0.0005 < 0.0005) by lra.
  split; [exact H |].
  exact (clamp_inverted_bounds 0.0001 0.0005 (-0.0005) H).
Defined.

(** X29: the prediction moves from the premium index towards the
    interest rate, never away from it: it is at least the premium when
    the interest rate is, and at most the premium when the interest rate
    is. *)
Theorem predicted_funding_direction (p i : R) :
  (p <= i -> p <= predicted_funding_from_premium p i) /\
  (i <= p -> predicted_funding_from_premium p i <= p).
Proof.
  unfold predicted_funding_from_premium, clamp, py_max, py_min.
  split; intros H; case_comparisons; lra.
Qed.

Lemma predicted_funding_direction_witness :
  (0.0003 <= 0.01 /\ 0.0003 <= predicted_funding_from_premium 0.0003 0.01) /\
  (0.0001 <= 0.01 /\ predicted_funding_from_premium 0.01 0.0001 <= 0.01).
Proof.
  assert (H1 : 0.0003 <= 0.01) by lra.
  assert (H2 : 0.0001 <= 0.01) by lra.
  split.
  - split; [exact H1 |].
    exact (proj1 (predicted_funding_direction 0.0003 0.01) H1).
  - split; [exact H2 |].
    exact (proj2 (predicted_funding_direction 0.01 0.0001) H2).
Defined.

(** X30: outside the band the premium dominates: a premium index at
    least 0.0005 above the interest rate gives the premium minus 0.0005,
    one at least 0.0005 below gives the premium plus 0.0005. *)
Theorem predicted_funding_outside_band (p i : R) :
  (i + 0.0005 <= p -> predicted_funding_from_premium p i = p - 0.0005) /\
  (p <= i - 0.0005 -> predicted_funding_from_premium p i = p + 0.0005).
Proof.
  unfold predicted_funding_from_premium, clamp, py_max, py_min.
  split; intros H; case_comparisons; lra.
Qed.

Lemma predicted_funding_outside_band_witness :
  (0.0001 + 0.0005 <= 0.01 /\
   predicted_funding_from_premium 0.01 0.0001 = 0.01 - 0.0005) /\
  (-0.01 <= 0.0001 - 0.0005 /\
   predicted_funding_from_premium (-0.01) 0.0001 = -0.01 + 0.0005).
Proof.
  assert (H1 : 0.0001 + 0.0005 <= 0.01) by lra.
  assert (H2 : -0.01 <= 0.0001 - 0.0005) by lra.
  split.
  - split; [exact H1 |].
    exact (proj1 (predicted_funding_outside_band 0.01 0.0001) H1).
  - split; [exact H2 |].
    exact (proj2 (predicted_funding_outside_band (-0.01) 0.0001) H2).
Defined.
